(** * The MCP REST dispatcher of [src/mcp-rest.ts]

    A shallow embedding of the request handlers registered on the MCP
    [Server], of the two Express routes and of the process-level hooks,
    together with the properties the specification states about them.

    JavaScript values are a small tree type, effects (console output,
    calls into the handler modules, the browser owned by the browser
    manager) are threaded through an explicit state, and [throw] /
    [try ... catch] are an error result. *)

From Stdlib Require Import String Ascii List ZArith Bool Lia.
From Stdlib Require Import DecimalString.
Import ListNotations.
Local Open Scope string_scope.

(** ** JavaScript values *)

Local Set Warnings "-register-all".

(** The values that travel through the dispatcher: decoded JSON (request
    bodies, tool arguments), handler results and thrown non-[Error]
    values.  [JNum n] is the Number written as the integer [n]; a [JObj]
    is a plain object with its own data properties in insertion order.
    No value here is a function. *)
Inductive JsValue : Type :=
| JUndefined
| JNull
| JBool (b : bool)
| JNum (n : Z)
| JStr (s : string)
| JArr (items : list JsValue)
| JObj (fields : list (string * JsValue)).

(** [ToBoolean]: what [a || b] tests. *)
Definition truthy (v : JsValue) : bool :=
  match v with
  | JUndefined | JNull => false
  | JBool b => b
  | JNum n => negb (n =? 0)%Z
  | JStr s => negb (s =? "")
  | JArr _ | JObj _ => true
  end.

(** [a || b] *)
Definition js_or (a b : JsValue) : JsValue :=
  if truthy a then a else b.

(** Property read [o.key]; [undefined] when the key is missing or [o]
    is not an object. *)
Fixpoint lookup_field (key : string) (fields : list (string * JsValue)) : JsValue :=
  match fields with
  | [] => JUndefined
  | (k, v) :: rest => if k =? key then v else lookup_field key rest
  end.

Definition get_field (key : string) (o : JsValue) : JsValue :=
  match o with
  | JObj fields => lookup_field key fields
  | _ => JUndefined
  end.

(** What a [throw] carries: an [Error] instance with its [message], or
    any other value. *)
Inductive Thrown : Type :=
| ErrorObject (message : string)
| ThrownValue (v : JsValue).

(** Outcome of an evaluation or of an awaited call: a value, or a
    thrown condition. *)
Inductive Result (A : Type) : Type :=
| Returned (a : A)
| Raised (error : Thrown).
Arguments Returned {A} a.
Arguments Raised {A} error.

(** *** [String] of a number

    [JNum n] is the Number written [n]: the double nearest to the
    integer, as a numeric literal or [JSON.parse] gives it.  Its string
    is the shortest decimal that reads back as the same double, printed
    in full up to 21 digits and in exponent form beyond. *)

(** The double nearest to a positive integer, as an integer: 53
    significant bits, ties to even. *)
Definition nearest_double (n : Z) : Z :=
  let bits := (Z.log2 n + 1)%Z in
  if (bits <=? 53)%Z then n
  else
    let unit := (2 ^ (bits - 53))%Z in
    let q := (n / unit)%Z in
    let r := (n mod unit)%Z in
    let half := (unit / 2)%Z in
    if ((half <? r) || ((r =? half) && Z.odd q))%Z
    then ((q + 1) * unit)%Z
    else (q * unit)%Z.

Definition decimal_text (n : Z) : string :=
  NilZero.string_of_uint (N.to_uint (Z.to_N n)).

(** The decimal with the fewest significant digits that reads back as
    the double [x]: multiples of [10 ^ e] are tried from the coarsest
    [e] down, the one below and the one above [x]; of two that both read
    back as [x] the nearer is taken, the even one on a tie. *)
Fixpoint shortest_decimal (x : Z) (e : nat) : Z :=
  let p := (10 ^ Z.of_nat e)%Z in
  let lo := (x / p * p)%Z in
  let hi := (lo + p)%Z in
  let lo_reads_back := ((0 <? lo) && (nearest_double lo =? x))%Z in
  let hi_reads_back := (nearest_double hi =? x)%Z in
  match lo_reads_back, hi_reads_back with
  | true, true =>
      if (x - lo <? hi - x)%Z then lo
      else if (hi - x <? x - lo)%Z then hi
      else if Z.even (lo / p) then lo else hi
  | true, false => lo
  | false, true => hi
  | false, false =>
      match e with
      | O => x
      | S e' => shortest_decimal x e'
      end
  end.

Fixpoint strip_zeros (fuel : nat) (c : Z) : Z :=
  match fuel with
  | O => c
  | S fuel' => if (c mod 10 =? 0)%Z then strip_zeros fuel' (c / 10)%Z else c
  end.

(** A positive decimal of up to 21 digits is printed in full, a longer
    one as [d.ddde+x]. *)
Definition print_decimal (c : Z) : string :=
  let digits := decimal_text c in
  let count := String.length digits in
  if (count <=? 21)%nat then digits
  else
    match decimal_text (strip_zeros count c) with
    | EmptyString => digits
    | String d EmptyString =>
        String d "" ++ "e+" ++ decimal_text (Z.of_nat (count - 1))
    | String d rest =>
        String d "" ++ "." ++ rest ++ "e+" ++ decimal_text (Z.of_nat (count - 1))
    end.

(** [Number::toString] for the Number written [n]. *)
Definition Number_toString (n : Z) : string :=
  if (n =? 0)%Z then "0"
  else
    let x := nearest_double (Z.abs n) in
    let sign := if (n <? 0)%Z then "-" else "" in
    if (2 ^ 1024 <=? x)%Z then sign ++ "Infinity"
    else sign ++ print_decimal (shortest_decimal x (String.length (decimal_text x))).

(** *** [String] of a value *)

Definition has_own_key (key : string) (fields : list (string * JsValue)) : bool :=
  existsb (fun field => fst field =? key) fields.

(** The [TypeError] of [ToPrimitive] when neither [toString] nor
    [valueOf] gives a primitive (V8's wording). *)
Definition TypeError_not_primitive : Thrown :=
  ErrorObject "Cannot convert object to primitive value".

(** [String(v)].  Arrays join their elements with a comma, [null] and
    [undefined] elements giving the empty string.  A [JObj] is a plain
    object (prototype [Object.prototype], own data properties): without
    an own [toString] it gives [[object Object]]; with one, which no
    value here makes callable, [valueOf] is tried, and whether own or
    inherited it yields no primitive, so a [TypeError] is thrown.  The
    conversion of an array throws when that of an element does. *)
Fixpoint js_String (v : JsValue) : Result string :=
  match v with
  | JUndefined => Returned "undefined"
  | JNull => Returned "null"
  | JBool true => Returned "true"
  | JBool false => Returned "false"
  | JNum n => Returned (Number_toString n)
  | JStr s => Returned s
  | JArr items =>
      (fix join (l : list JsValue) : Result string :=
         match l with
         | [] => Returned ""
         | x :: rest =>
             match
               match x with
               | JUndefined | JNull => Returned ""
               | _ => js_String x
               end
             with
             | Raised error => Raised error
             | Returned here =>
                 match rest with
                 | [] => Returned here
                 | _ :: _ =>
                     match join rest with
                     | Raised error => Raised error
                     | Returned others => Returned (here ++ "," ++ others)
                     end
                 end
             end
         end) items
  | JObj fields =>
      if has_own_key "toString" fields
      then Raised TypeError_not_primitive
      else Returned "[object Object]"
  end.

(** [error instanceof Error ? error.message : String(error)] *)
Definition error_message (error : Thrown) : Result string :=
  match error with
  | ErrorObject message => Returned message
  | ThrownValue v => js_String v
  end.

(** ** Names, events and protocol messages *)

(** The keys of [TOOL_NAMES] ([utils/tool-definitions.js]). *)
Inductive ToolKey : Type :=
| BROWSER_INIT | NAVIGATE | GET_CONTENT | CLICK | TYPE | WAIT
| BROWSER_CLOSE | SOLVE_CAPTCHA | RANDOM_SCROLL | FIND_SELECTOR
| SAVE_CONTENT_AS_MARKDOWN.

(** The functions imported from the handler modules and from the
    browser manager.  The dispatcher only calls them. *)
Inductive External : Type :=
| handleBrowserInit | handleBrowserClose
| handleNavigate | handleWait
| handleClick | handleType | handleSolveCaptcha | handleRandomScroll
| handleGetContent | handleFindSelector
| handleSaveContentAsMarkdown
| closeBrowser | forceKillAllChromeProcesses.

(** Conditions outside any request: the two process events the file
    listens to, and a termination signal. *)
Inductive FatalCondition : Type :=
| UncaughtException (error : Thrown)
| UnhandledRejection (reason : Thrown)
| TerminationSignal (signal : string).

(** One constructor per [console.error] / [console.log] call site of the
    file, carrying the interpolated values; the last two are the lines of
    the cleanup listener. *)
Inductive LogEntry : Type :=
| InitializeRequestReceived (protocolVersion : string) (clientParams : JsValue)
| ToolsListRequested
| ToolCallReceived (name : string) (args : JsValue)
| ToolFailed (name : string) (errorMessage : string)
| SessionInitialized (sessionId : string)
| ErrorHandlingMcpRequest (error : Thrown)
| ProcessCleanupTriggered
| ServerRunning (port : JsValue)
| ToolsLoaded (count : nat)
| ContentPriorityMode
| FailedToStart (error : Thrown)
| UncaughtExceptionLogged (error : Thrown)
| UnhandledRejectionLogged (reason : Thrown)
| CleanupFailed (error : Thrown)
| FatalConditionReceived (condition : FatalCondition).

(** What [app.listen(PORT, callback)] does to the code that calls it: it
    throws, or it returns and the callback is run once the server
    listens, or it returns and the callback is never run. *)
Inductive ListenOutcome : Type :=
| ListenThrows (error : Thrown)
| ListenCallbackRuns
| ListenCallbackNeverRuns.

(** What the process does that is visible from outside a handler. *)
Inductive Event : Type :=
| ConsoleError (entry : LogEntry)
| ConsoleLog (entry : LogEntry)
| Invoke (callee : External) (actuals : list JsValue)
| Listen (port : JsValue)
| ProceedTowardExit.

(** The five request kinds that have a handler registered. *)
Inductive Request : Type :=
| InitializeRequest (protocolVersion : string) (clientParams : JsValue)
| ListToolsRequest
| ListResourcesRequest
| ListPromptsRequest
| CallToolRequest (name : string) (args : JsValue).

Inductive HttpBody : Type :=
| Json (v : JsValue)
| Text (s : string).

Record HttpResponse : Type := { status : Z; body : HttpBody }.

Inductive HttpRequest : Type :=
| PostMcp (reqBody : JsValue)
| GetHealth.

(** The calls to [External] functions recorded in a trace, in order. *)
Fixpoint invocations (tr : list Event) : list (External * list JsValue) :=
  match tr with
  | [] => []
  | Invoke callee actuals :: rest => (callee, actuals) :: invocations rest
  | _ :: rest => invocations rest
  end.

(** The console entries recorded in a trace, in order. *)
Fixpoint console (tr : list Event) : list LogEntry :=
  match tr with
  | [] => []
  | ConsoleError entry :: rest => entry :: console rest
  | ConsoleLog entry :: rest => entry :: console rest
  | _ :: rest => console rest
  end.

(** The switch of the tool-call handler, top to bottom. *)
Definition case_labels : list ToolKey :=
  [BROWSER_INIT; NAVIGATE; GET_CONTENT; CLICK; TYPE; WAIT; BROWSER_CLOSE;
   SOLVE_CAPTCHA; RANDOM_SCROLL; FIND_SELECTOR; SAVE_CONTENT_AS_MARKDOWN].

(** The function each case awaits. *)
Definition bound_handler (k : ToolKey) : External :=
  match k with
  | BROWSER_INIT => handleBrowserInit
  | NAVIGATE => handleNavigate
  | GET_CONTENT => handleGetContent
  | CLICK => handleClick
  | TYPE => handleType
  | WAIT => handleWait
  | BROWSER_CLOSE => handleBrowserClose
  | SOLVE_CAPTCHA => handleSolveCaptcha
  | RANDOM_SCROLL => handleRandomScroll
  | FIND_SELECTOR => handleFindSelector
  | SAVE_CONTENT_AS_MARKDOWN => handleSaveContentAsMarkdown
  end.

Definition ToolKey_eqb (a b : ToolKey) : bool :=
  match a, b with
  | BROWSER_INIT, BROWSER_INIT | NAVIGATE, NAVIGATE
  | GET_CONTENT, GET_CONTENT | CLICK, CLICK | TYPE, TYPE | WAIT, WAIT
  | BROWSER_CLOSE, BROWSER_CLOSE | SOLVE_CAPTCHA, SOLVE_CAPTCHA
  | RANDOM_SCROLL, RANDOM_SCROLL | FIND_SELECTOR, FIND_SELECTOR
  | SAVE_CONTENT_AS_MARKDOWN, SAVE_CONTENT_AS_MARKDOWN => true
  | _, _ => false
  end.

(** Position of a key's case in the switch, from the top. *)
Definition case_index (k : ToolKey) : nat :=
  match k with
  | BROWSER_INIT => 0
  | NAVIGATE => 1
  | GET_CONTENT => 2
  | CLICK => 3
  | TYPE => 4
  | WAIT => 5
  | BROWSER_CLOSE => 6
  | SOLVE_CAPTCHA => 7
  | RANDOM_SCROLL => 8
  | FIND_SELECTOR => 9
  | SAVE_CONTENT_AS_MARKDOWN => 10
  end.

(** The process state a request can observe or change: the collaborators'
    world, the trace of events so far, and the session identifiers the
    transport has handed out. *)
Record State (World : Type) : Type := {
  world : World;
  trace : list Event;
  sessions : list string
}.
Arguments world {World} _.
Arguments trace {World} _.
Arguments sessions {World} _.

(** ** Concrete collaborators

    A table of names and a set of handlers to run the dispatcher on. *)

(** Modelled from the spec: the values of [TOOL_NAMES]
    ([utils/tool-definitions.js] is not among the sources); the spec
    names the tool [navigate] and lists the eleven handlers. *)
Definition demo_TOOL_NAMES (k : ToolKey) : string :=
  match k with
  | BROWSER_INIT => "browser_init"
  | NAVIGATE => "navigate"
  | GET_CONTENT => "get_content"
  | CLICK => "click"
  | TYPE => "type"
  | WAIT => "wait"
  | BROWSER_CLOSE => "browser_close"
  | SOLVE_CAPTCHA => "solve_captcha"
  | RANDOM_SCROLL => "random_scroll"
  | FIND_SELECTOR => "find_selector"
  | SAVE_CONTENT_AS_MARKDOWN => "save_content_as_markdown"
  end.

Definition text_envelope (text : string) : JsValue :=
  JObj [("content", JArr [JObj [("type", JStr "text"); ("text", JStr text)]])].

(** Handlers over a world that counts the calls made: [handleNavigate]
    rejects a missing [url] with an [Error], [handleWait] throws a bare
    string, [handleClick] echoes what it was given, the others succeed. *)
Definition demo_external (callee : External) (actuals : list JsValue) (w : nat)
  : Result JsValue * nat :=
  match callee, actuals with
  | handleNavigate, [args] =>
      match get_field "url" args with
      | JStr url => (Returned (text_envelope ("Navigated to " ++ url)), S w)
      | _ => (Raised (ErrorObject "Invalid URL"), S w)
      end
  | handleWait, _ => (Raised (ThrownValue (JStr "timeout")), S w)
  | handleClick, [args] => (Returned args, S w)
  | handleBrowserInit, [args] => (Returned args, S w)
  | _, _ => (Returned (text_envelope "ok"), S w)
  end.

(** The same handlers next to a browser manager whose [closeBrowser]
    fails. *)
Definition flaky_external (callee : External) (actuals : list JsValue) (w : nat)
  : Result JsValue * nat :=
  match callee with
  | closeBrowser => (Raised (ErrorObject "no browser"), w)
  | _ => demo_external callee actuals w
  end.

(** The same handlers, except that [handleType] rejects with the very
    value it was given instead of an [Error]. *)
Definition throwing_external (callee : External) (actuals : list JsValue) (w : nat)
  : Result JsValue * nat :=
  match callee, actuals with
  | handleType, [args] => (Raised (ThrownValue args), S w)
  | _, _ => demo_external callee actuals w
  end.

(** A table in which two keys carry the same name. *)
Definition clashing_TOOL_NAMES (k : ToolKey) : string :=
  match k with
  | SOLVE_CAPTCHA => "click"
  | _ => demo_TOOL_NAMES k
  end.

Definition demo_state : State nat :=
  {| world := 0; trace := []; sessions := [] |}.

(** A decoder for bodies of the shape [{method, params}]. *)
Definition demo_decode (reqBody : JsValue) : Result Request :=
  match get_field "method" reqBody with
  | JStr "initialize" =>
      match get_field "protocolVersion" (get_field "params" reqBody) with
      | JStr v => Returned (InitializeRequest v (get_field "params" reqBody))
      | _ => Raised (ErrorObject "Invalid request")
      end
  | JStr "tools/list" => Returned ListToolsRequest
  | JStr "resources/list" => Returned ListResourcesRequest
  | JStr "prompts/list" => Returned ListPromptsRequest
  | JStr "tools/call" =>
      match get_field "name" (get_field "params" reqBody) with
      | JStr name =>
          Returned (CallToolRequest name
                      (get_field "arguments" (get_field "params" reqBody)))
      | _ => Raised (ErrorObject "Invalid request")
      end
  | _ => Raised (ErrorObject "Invalid request")
  end.

Definition demo_transmit (envelope : JsValue) : option Thrown := None.

Definition demo_randomUUID (n : nat) : string :=
  "session-" ++ NilZero.string_of_uint (Nat.to_uint n).

(** ** The server *)

Section Server.

(** Whatever the handler modules and the browser manager own (the
    browser, open pages, files written). *)
Variable World : Type.

(** The imported functions: given the actual arguments of a call and
    the world, a result or a thrown condition, and the new world. *)
Variable external : External -> list JsValue -> World -> Result JsValue * World.

(** The constants of [utils/tool-definitions.js]. *)
Variable TOOL_NAMES : ToolKey -> string.
Variable TOOLS : list JsValue.
Variable SERVER_INFO : JsValue.
Variable CAPABILITIES : JsValue.

(** [randomUUID()], by the number of identifiers drawn so far. *)
Variable randomUUID : nat -> string.

(** The transport's decoding of a request body and its writing of a
    reply; either can fail. *)
Variable decode : JsValue -> Result Request.
Variable transmit : JsValue -> option Thrown.

(** *** Effects *)

Definition M (A : Type) : Type := State World -> Result A * State World.

Definition ret {A} (a : A) : M A := fun st => (Returned a, st).

Definition bind {A B} (c : M A) (k : A -> M B) : M B :=
  fun st =>
    match c st with
    | (Returned a, st') => k a st'
    | (Raised error, st') => (Raised error, st')
    end.

Definition throw {A} (error : Thrown) : M A := fun st => (Raised error, st).

(** An expression that yields a value or throws, and has no other effect. *)
Definition evaluate {A} (outcome : Result A) : M A := fun st => (outcome, st).

(** [try { body } catch (error) { handler }] *)
Definition try_catch {A} (body : M A) (handler : Thrown -> M A) : M A :=
  fun st =>
    match body st with
    | (Returned a, st') => (Returned a, st')
    | (Raised error, st') => handler error st'
    end.

Definition emit (e : Event) : M unit :=
  fun st =>
    (Returned tt,
     {| world := world st; trace := trace st ++ [e]; sessions := sessions st |}).

Definition console_error (entry : LogEntry) : M unit := emit (ConsoleError entry).
Definition console_log (entry : LogEntry) : M unit := emit (ConsoleLog entry).

(** [await callee(...actuals)] *)
Definition call (callee : External) (actuals : list JsValue) : M JsValue :=
  fun st =>
    let (outcome, w) := external callee actuals (world st) in
    (outcome,
     {| world := w;
        trace := trace st ++ [Invoke callee actuals];
        sessions := sessions st |}).

Notation "x <- c ;; k" := (bind c (fun x => k))
  (at level 61, c at next level, right associativity).
Notation "c ;; k" := (bind c (fun _ => k))
  (at level 61, right associativity).

(** *** Request handlers (lines 32-116) *)

Definition initialize (protocolVersion : string) (clientParams : JsValue) : M JsValue :=
  console_error (InitializeRequestReceived protocolVersion clientParams) ;;
  let clientProtocolVersion := protocolVersion in
  ret (JObj [("protocolVersion", JStr clientProtocolVersion);
             ("capabilities", CAPABILITIES);
             ("serverInfo", SERVER_INFO)]).

Definition listTools : M JsValue :=
  console_error ToolsListRequested ;;
  ret (JObj [("tools", JArr TOOLS)]).

Definition listResources : M JsValue :=
  ret (JObj [("resources", JArr [])]).

Definition listPrompts : M JsValue :=
  ret (JObj [("prompts", JArr [])]).

(** The envelope built in the [catch] block. *)
Definition failure_envelope (errorMessage : string) : JsValue :=
  JObj [("content",
         JArr [JObj [("type", JStr "text");
                     ("text", JStr ("❌ Tool execution failed: " ++ errorMessage))]]);
        ("isError", JBool true)].

Definition callTool (name : string) (args : JsValue) : M JsValue :=
  console_error (ToolCallReceived name args) ;;
  try_catch
    (if name =? TOOL_NAMES BROWSER_INIT then
       call handleBrowserInit [js_or args (JObj [])]
     else if name =? TOOL_NAMES NAVIGATE then
       call handleNavigate [args]
     else if name =? TOOL_NAMES GET_CONTENT then
       call handleGetContent [js_or args (JObj [])]
     else if name =? TOOL_NAMES CLICK then
       call handleClick [args]
     else if name =? TOOL_NAMES TYPE then
       call handleType [args]
     else if name =? TOOL_NAMES WAIT then
       call handleWait [args]
     else if name =? TOOL_NAMES BROWSER_CLOSE then
       call handleBrowserClose []
     else if name =? TOOL_NAMES SOLVE_CAPTCHA then
       call handleSolveCaptcha [args]
     else if name =? TOOL_NAMES RANDOM_SCROLL then
       call handleRandomScroll []
     else if name =? TOOL_NAMES FIND_SELECTOR then
       call handleFindSelector [args]
     else if name =? TOOL_NAMES SAVE_CONTENT_AS_MARKDOWN then
       call handleSaveContentAsMarkdown [args]
     else
       throw (ErrorObject ("Unknown tool: " ++ name)))
    (fun error =>
       errorMessage <- evaluate (error_message error) ;;
       console_error (ToolFailed name errorMessage) ;;
       ret (failure_envelope errorMessage)).

(** The server's routing of a request to the handler registered for
    its schema. *)
Definition dispatch (request : Request) : M JsValue :=
  match request with
  | InitializeRequest protocolVersion clientParams =>
      initialize protocolVersion clientParams
  | ListToolsRequest => listTools
  | ListResourcesRequest => listResources
  | ListPromptsRequest => listPrompts
  | CallToolRequest name args => callTool name args
  end.

(** *** The routing table read off the switch *)

(** The first case whose label is strictly equal to [name]. *)
Definition select_case (name : string) : option ToolKey :=
  find (fun k => name =? TOOL_NAMES k) case_labels.

(** What the selected case passes to its handler. *)
Definition case_actuals (k : ToolKey) (args : JsValue) : list JsValue :=
  match k with
  | BROWSER_INIT | GET_CONTENT => [js_or args (JObj [])]
  | BROWSER_CLOSE | RANDOM_SCROLL => []
  | _ => [args]
  end.

(** How many descriptors of the registry carry [name]. *)
Definition descriptors_named (name : string) : nat :=
  length (filter (fun d => match get_field "name" d with
                           | JStr s => s =? name
                           | _ => false
                           end) TOOLS).

(** The registry holds exactly one descriptor named after each key. *)
Definition registry_consistent : bool :=
  forallb (fun k => (descriptors_named (TOOL_NAMES k) =? 1)%nat) case_labels.

(** *** Transport and routes (lines 118-136) *)

(** The two options given to the transport. *)
Definition sessionIdGenerator : M string :=
  fun st => (Returned (randomUUID (length (sessions st))), st).

Definition onsessioninitialized (sessionId : string) : M unit :=
  console_log (SessionInitialized sessionId).

Definition remember_session (sessionId : string) : M unit :=
  fun st =>
    (Returned tt,
     {| world := world st; trace := trace st;
        sessions := sessions st ++ [sessionId] |}).

(** Modelled from the spec: the session transport of the MCP SDK
    ([StreamableHTTPServerTransport], not among the sources).  A
    handshake initializes a session with the two options above. *)
Definition initializeSession : M string :=
  sessionId <- sessionIdGenerator ;;
  remember_session sessionId ;;
  onsessioninitialized sessionId ;;
  ret sessionId.

(** Modelled from the spec: the binding of an exchange to a session;
    a handshake creates one, other requests reuse theirs. *)
Definition bind_session (request : Request) : M unit :=
  match request with
  | InitializeRequest _ _ => initializeSession ;; ret tt
  | _ => ret tt
  end.

(** Modelled from the spec: [transport.handleRequest] of the MCP SDK
    (not among the sources).  It decodes the body, forwards the message
    to the dispatcher and writes the dispatcher's envelope with status
    200; a body that cannot be decoded or a reply that cannot be
    transmitted is a transport fault, which it raises. *)
Definition handleRequest (reqBody : JsValue) : M HttpResponse :=
  match decode reqBody with
  | Raised fault => throw fault
  | Returned request =>
      bind_session request ;;
      envelope <- dispatch request ;;
      match transmit envelope with
      | Some fault => throw fault
      | None => ret {| status := 200; body := Json envelope |}
      end
  end.

(** [app.post('/mcp', ...)] *)
Definition postMcp (reqBody : JsValue) : M HttpResponse :=
  try_catch (handleRequest reqBody)
    (fun error =>
       console_error (ErrorHandlingMcpRequest error) ;;
       ret {| status := 500;
              body := Json (JObj [("error", JStr "Internal Server Error")]) |}).

(** [app.get('/health', ...)] *)
Definition getHealth : M HttpResponse :=
  ret {| status := 200; body := Text "Server is healthy" |}.

Definition serve (request : HttpRequest) : M HttpResponse :=
  match request with
  | PostMcp reqBody => postMcp reqBody
  | GetHealth => getHealth
  end.

(** The state after a sequence of exchanges. *)
Fixpoint serve_all (history : list HttpRequest) (st : State World) : State World :=
  match history with
  | [] => st
  | request :: rest => serve_all rest (snd (serve request st))
  end.

(** *** Process hooks and startup (lines 138-164) *)

(** The callback given to [setupProcessCleanup]. *)
Definition cleanupCallback : M unit :=
  console_error ProcessCleanupTriggered ;;
  call closeBrowser [] ;;
  call forceKillAllChromeProcesses [] ;;
  ret tt.

(** [process.on('uncaughtException', ...)] *)
Definition onUncaughtException (error : Thrown) : M unit :=
  console_error (UncaughtExceptionLogged error).

(** [process.on('unhandledRejection', ...)] *)
Definition onUnhandledRejection (reason : Thrown) : M unit :=
  console_error (UnhandledRejectionLogged reason).

(** Modelled from the spec: [setupProcessCleanup] of
    [utils/core-infrastructure.js] (not among the sources).  The
    listener it registers for termination signals and for unhandled
    failures logs the condition (spec 7: never silent, always logged),
    then runs the callback; a failure of the callback is logged and not
    raised again (spec 4.5). *)
Definition setupProcessCleanup (callback : M unit) (condition : FatalCondition) : M unit :=
  console_error (FatalConditionReceived condition) ;;
  try_catch callback (fun error => console_error (CleanupFailed error)).

(** Modelled from the spec: what the process does on a fatal
    condition.  The listeners run in the order the file registers them
    (the cleanup listener of line 139, then the logging listener of
    lines 158-164 for the two process events), each to completion, and
    only then does the process go on toward exit. *)
Definition process_fatal (condition : FatalCondition) : M unit :=
  setupProcessCleanup cleanupCallback condition ;;
  match condition with
  | UncaughtException error => onUncaughtException error
  | UnhandledRejection reason => onUnhandledRejection reason
  | TerminationSignal _ => ret tt
  end ;;
  emit ProceedTowardExit.

(** [app.listen(PORT, callback)]: the call is recorded; when it throws
    the callback is dropped, when the server comes to listen the
    callback is run, otherwise nothing more happens here. *)
Definition app_listen (PORT : JsValue) (listened : ListenOutcome) (callback : M unit)
  : M unit :=
  emit (Listen PORT) ;;
  match listened with
  | ListenThrows error => throw error
  | ListenCallbackRuns => callback
  | ListenCallbackNeverRuns => ret tt
  end.

(** [server.connect(transport).then(...).catch(...)], given the value
    of [process.env.SERVER_PORT], the outcome of [connect] and what
    [app.listen] does when it is called. *)
Definition startup (SERVER_PORT : option string) (connected : Result unit)
    (listened : ListenOutcome) : M unit :=
  try_catch
    (match connected with
     | Raised error => throw error
     | Returned _ =>
         let PORT :=
           js_or (match SERVER_PORT with
                  | Some s => JStr s
                  | None => JUndefined
                  end) (JNum 7777) in
         app_listen PORT listened
           (console_log (ServerRunning PORT) ;;
            console_log (ToolsLoaded (length TOOLS)) ;;
            console_log ContentPriorityMode)
     end)
    (fun error => console_error (FailedToStart error)).

(** ** Properties *)

(** *** The switch as a routing table *)

Lemma callTool_switch (name : string) (args : JsValue) :
  callTool name args =
  (console_error (ToolCallReceived name args) ;;
   try_catch
     (match select_case name with
      | Some k => call (bound_handler k) (case_actuals k args)
      | None => throw (ErrorObject ("Unknown tool: " ++ name))
      end)
     (fun error =>
        errorMessage <- evaluate (error_message error) ;;
        console_error (ToolFailed name errorMessage) ;;
        ret (failure_envelope errorMessage))).
Proof.
  unfold callTool, select_case, case_labels. cbn [find].
  repeat match goal with
         | |- context [if ?b then _ else _] => destruct b
         end; reflexivity.
Qed.

(** A routed call: the request is logged, the bound handler is awaited
    on the case's actual arguments, and its outcome is returned or
    turned into the failure envelope; when the raised condition cannot
    be turned into a message, the [catch] block itself throws. *)
Lemma callTool_routed (name : string) (args : JsValue) (k : ToolKey) (st : State World) :
  select_case name = Some k ->
  callTool name args st =
  match external (bound_handler k) (case_actuals k args) (world st) with
  | (Returned v, w) =>
      (Returned v,
       {| world := w;
          trace := (trace st ++ [ConsoleError (ToolCallReceived name args)])
                     ++ [Invoke (bound_handler k) (case_actuals k args)];
          sessions := sessions st |})
  | (Raised error, w) =>
      match error_message error with
      | Returned message =>
          (Returned (failure_envelope message),
           {| world := w;
              trace := ((trace st ++ [ConsoleError (ToolCallReceived name args)])
                          ++ [Invoke (bound_handler k) (case_actuals k args)])
                         ++ [ConsoleError (ToolFailed name message)];
              sessions := sessions st |})
      | Raised failure =>
          (Raised failure,
           {| world := w;
              trace := (trace st ++ [ConsoleError (ToolCallReceived name args)])
                         ++ [Invoke (bound_handler k) (case_actuals k args)];
              sessions := sessions st |})
      end
  end.
Proof.
  intros Hk. rewrite callTool_switch, Hk.
  unfold bind, try_catch, console_error, emit, call, ret, evaluate. cbn.
  destruct (external (bound_handler k) (case_actuals k args) (world st))
    as [[v | error] w]; [reflexivity |].
  cbn. destruct (error_message error); reflexivity.
Qed.

Lemma callTool_unrouted (name : string) (args : JsValue) (st : State World) :
  select_case name = None ->
  callTool name args st =
  (Returned (failure_envelope ("Unknown tool: " ++ name)),
   {| world := world st;
      trace := (trace st ++ [ConsoleError (ToolCallReceived name args)])
                 ++ [ConsoleError (ToolFailed name ("Unknown tool: " ++ name))];
      sessions := sessions st |}).
Proof.
  intros Hk. rewrite callTool_switch, Hk. reflexivity.
Qed.

Lemma select_case_label (name : string) (k : ToolKey) :
  select_case name = Some k -> name = TOOL_NAMES k.
Proof.
  unfold select_case. intros H.
  apply find_some in H. destruct H as [_ H].
  now apply String.eqb_eq.
Qed.

Lemma select_case_absent (name : string) :
  (forall k, TOOL_NAMES k <> name) -> select_case name = None.
Proof.
  intros Habsent. destruct (select_case name) as [k |] eqn:E; [| reflexivity].
  apply select_case_label in E. exfalso. now apply (Habsent k).
Qed.

Lemma invocations_app (tr1 tr2 : list Event) :
  invocations (tr1 ++ tr2) = (invocations tr1 ++ invocations tr2)%list.
Proof.
  induction tr1 as [| e tr1 IH]; [reflexivity |].
  destruct e; cbn; rewrite ?IH; reflexivity.
Qed.

Lemma console_app (tr1 tr2 : list Event) :
  console (tr1 ++ tr2) = (console tr1 ++ console tr2)%list.
Proof.
  induction tr1 as [| e tr1 IH]; [reflexivity |].
  destruct e; cbn; rewrite ?IH; reflexivity.
Qed.


(** *** Tool calls *)

(** X12. When the matched handler raises an [Error], or a value that
    [String] converts, the dispatcher returns the envelope whose single
    text block reads "❌ Tool execution failed: " followed by the
    [Error]'s message, or by the string of the value, with
    [isError: true]. *)
Theorem X12_handler_failure_envelope
    (name : string) (args : JsValue) (k : ToolKey) (st : State World)
    (error : Thrown) (w : World) (message : string) :
  select_case name = Some k ->
  external (bound_handler k) (case_actuals k args) (world st) = (Raised error, w) ->
  match error with
  | ErrorObject m => Returned m
  | ThrownValue v => js_String v
  end = Returned message ->
  fst (dispatch (CallToolRequest name args) st) =
    Returned
      (JObj [("content",
              JArr [JObj [("type", JStr "text");
                          ("text", JStr ("❌ Tool execution failed: " ++ message))]]);
             ("isError", JBool true)]).
Proof.
  intros Hk Hraise Hmessage. cbn [dispatch].
  rewrite (callTool_routed name args k st Hk), Hraise.
  change (error_message error = Returned message) in Hmessage.
  rewrite Hmessage. reflexivity.
Qed.

(** C2. A request whose name is no label of the switch gets the failure
    envelope for "Unknown tool: <name>" with [isError: true] as a
    normal return value; no imported function is called, the world is
    untouched, and nothing is raised toward the transport. *)
Theorem C2_unknown_tool_envelope
    (name : string) (args : JsValue) (st : State World) :
  (forall k, TOOL_NAMES k <> name) ->
  let outcome := dispatch (CallToolRequest name args) st in
  fst outcome =
    Returned
      (JObj [("content",
              JArr [JObj [("type", JStr "text");
                          ("text", JStr ("❌ Tool execution failed: Unknown tool: " ++ name))]]);
             ("isError", JBool true)])
  /\ (forall envelope, fst outcome = Returned envelope ->
        get_field "isError" envelope = JBool true)
  /\ invocations (trace (snd outcome)) = invocations (trace st)
  /\ world (snd outcome) = world st
  /\ forall raised, fst outcome <> Raised raised.
Proof.
  intros Habsent outcome. subst outcome. cbn [dispatch].
  rewrite (callTool_unrouted name args st (select_case_absent name Habsent)).
  cbn [fst snd trace world].
  repeat split.
  - intros envelope H. injection H as <-. reflexivity.
  - rewrite !invocations_app. cbn. now rewrite !app_nil_r.
  - discriminate.
Qed.

(** C5. What each case passes on.  The handlers of BROWSER_INIT and
    GET_CONTENT receive an empty mapping when the argument payload is undefined and
    a supplied mapping as it is; the handlers of NAVIGATE, CLICK, TYPE,
    WAIT, SOLVE_CAPTCHA, FIND_SELECTOR and SAVE_CONTENT_AS_MARKDOWN
    receive the raw payload unmodified; the handlers of BROWSER_CLOSE
    and RANDOM_SCROLL are called with no argument at all. *)
Theorem C5_arguments_passed
    (name : string) (args : JsValue) (k : ToolKey) (st : State World) :
  select_case name = Some k ->
  invocations (trace (snd (dispatch (CallToolRequest name args) st))) =
  (invocations (trace st) ++
   [(bound_handler k,
     match k with
     | BROWSER_INIT | GET_CONTENT =>
         match args with
         | JUndefined => [JObj []]
         | JObj fields => [JObj fields]
         | _ => [js_or args (JObj [])]
         end
     | BROWSER_CLOSE | RANDOM_SCROLL => []
     | NAVIGATE | CLICK | TYPE | WAIT | SOLVE_CAPTCHA | FIND_SELECTOR
     | SAVE_CONTENT_AS_MARKDOWN => [args]
     end)])%list.
Proof.
  intros Hk. cbn [dispatch]. rewrite (callTool_routed name args k st Hk).
  destruct (external (bound_handler k) (case_actuals k args) (world st))
    as [[v | error] w]; [| destruct (error_message error)]; cbn [snd trace];
    rewrite !invocations_app; cbn; rewrite ?app_nil_r;
    destruct k; cbn; try reflexivity; destruct args; reflexivity.
Qed.

(** C10. A request routed to BROWSER_CLOSE or RANDOM_SCROLL calls the
    bound handler with an empty argument list whatever arguments it
    carries: two such requests with different arguments make the same
    call, return the same result and leave the same world. *)
Theorem C10_arguments_discarded
    (name : string) (k : ToolKey) (args1 args2 : JsValue) (st : State World) :
  select_case name = Some k ->
  k = BROWSER_CLOSE \/ k = RANDOM_SCROLL ->
  let outcome1 := dispatch (CallToolRequest name args1) st in
  let outcome2 := dispatch (CallToolRequest name args2) st in
  invocations (trace (snd outcome1)) =
    (invocations (trace st) ++ [(bound_handler k, [])])%list
  /\ invocations (trace (snd outcome2)) = invocations (trace (snd outcome1))
  /\ fst outcome1 = fst outcome2
  /\ world (snd outcome1) = world (snd outcome2).
Proof.
  intros Hk Hkind outcome1 outcome2. subst outcome1 outcome2. cbn [dispatch].
  rewrite (callTool_routed name args1 k st Hk), (callTool_routed name args2 k st Hk).
  assert (Hact : forall args, case_actuals k args = [])
    by (destruct Hkind; subst k; reflexivity).
  rewrite (Hact args1), (Hact args2).
  destruct (external (bound_handler k) [] (world st)) as [[v | error] w];
    [| destruct (error_message error)];
    cbn [fst snd trace world]; rewrite !invocations_app; cbn;
    rewrite ?app_nil_r; repeat split; reflexivity.
Qed.

(** *** Handshake and catalog *)

(** C3. The handshake answers with the protocol version the caller
    sent, whatever string it is, next to [CAPABILITIES] and
    [SERVER_INFO] as they are; its only effect is the log line. *)
Theorem C3_handshake_echo
    (protocolVersion : string) (clientParams : JsValue) (st : State World) :
  dispatch (InitializeRequest protocolVersion clientParams) st =
    (Returned (JObj [("protocolVersion", JStr protocolVersion);
                     ("capabilities", CAPABILITIES);
                     ("serverInfo", SERVER_INFO)]),
     {| world := world st;
        trace := trace st ++
                 [ConsoleError (InitializeRequestReceived protocolVersion clientParams)];
        sessions := sessions st |})
  /\ get_field "protocolVersion"
       match fst (dispatch (InitializeRequest protocolVersion clientParams) st) with
       | Returned response => response
       | Raised _ => JUndefined
       end = JStr protocolVersion.
Proof. split; reflexivity. Qed.

(** C9. After any sequence of exchanges, ListTools returns [TOOLS]
    as it is (its only effect is the log line), and ListResources and
    ListPrompts return an empty array and change nothing. *)
Theorem C9_catalog_queries (history : list HttpRequest) (st : State World) :
  let st' := serve_all history st in
  dispatch ListToolsRequest st' =
    (Returned (JObj [("tools", JArr TOOLS)]),
     {| world := world st';
        trace := trace st' ++ [ConsoleError ToolsListRequested];
        sessions := sessions st' |})
  /\ dispatch ListResourcesRequest st' =
       (Returned (JObj [("resources", JArr [])]), st')
  /\ dispatch ListPromptsRequest st' =
       (Returned (JObj [("prompts", JArr [])]), st').
Proof. repeat split. Qed.

(** *** Routes *)

Lemma bind_session_returns (request : Request) (st : State World) :
  fst (bind_session request st) = Returned tt.
Proof. destruct request; reflexivity. Qed.

(** The transport's handling, case by case. *)
Lemma handleRequest_cases (reqBody : JsValue) (st : State World) :
  handleRequest reqBody st =
  match decode reqBody with
  | Raised fault => (Raised fault, st)
  | Returned request =>
      match dispatch request (snd (bind_session request st)) with
      | (Returned envelope, st2) =>
          match transmit envelope with
          | Some fault => (Raised fault, st2)
          | None => (Returned {| status := 200; body := Json envelope |}, st2)
          end
      | (Raised error, st2) => (Raised error, st2)
      end
  end.
Proof.
  unfold handleRequest. destruct (decode reqBody) as [request | fault]; [| reflexivity].
  unfold bind at 1.
  pose proof (bind_session_returns request st) as Hs.
  destruct (bind_session request st) as [r st1]. cbn [fst snd] in *. subst r.
  unfold bind.
  destruct (dispatch request st1) as [[envelope | error] st2]; [| reflexivity].
  destruct (transmit envelope); reflexivity.
Qed.

(** C4. When the transport handles the exchange without raising, the
    reply is the dispatcher's envelope with status 200, whatever its
    [isError]; the reply is status 500 with [{error: "Internal Server
    Error"}] exactly when the transport's handling raises; the route
    itself never raises. *)
Theorem C4_post_mcp_status (reqBody : JsValue) (st : State World) :
  (forall response st',
      handleRequest reqBody st = (Returned response, st') ->
      exists request envelope,
        decode reqBody = Returned request
        /\ dispatch request (snd (bind_session request st)) = (Returned envelope, st')
        /\ postMcp reqBody st =
             (Returned {| status := 200; body := Json envelope |}, st'))
  /\ ((exists st',
         postMcp reqBody st =
           (Returned {| status := 500;
                        body := Json (JObj [("error", JStr "Internal Server Error")]) |},
            st'))
      <-> (exists fault st', handleRequest reqBody st = (Raised fault, st')))
  /\ exists response, fst (postMcp reqBody st) = Returned response.
Proof.
  unfold postMcp, try_catch. rewrite handleRequest_cases.
  destruct (decode reqBody) as [request | fault].
  - destruct (dispatch request (snd (bind_session request st)))
      as [[envelope | error] st2] eqn:Hdispatch.
    + destruct (transmit envelope) as [fault |].
      * split; [discriminate |]. split; [| eexists; reflexivity].
        split; [intros _; eauto | intros _; eexists; reflexivity].
      * split.
        { intros response st' H. injection H as <- <-.
          exists request, envelope. repeat split. exact Hdispatch. }
        split; [| eexists; reflexivity].
        split; [intros [st' H]; discriminate | intros (fault & st' & H); discriminate].
    + split; [discriminate |]. split; [| eexists; reflexivity].
      split; [intros _; eauto | intros _; eexists; reflexivity].
  - split; [discriminate |]. split; [| eexists; reflexivity].
    split; [intros _; eauto | intros _; eexists; reflexivity].
Qed.

(** C8. After any sequence of exchanges, GET /health answers 200 with
    the body "Server is healthy" and leaves the state as it was, so
    asking again gives the same answer. *)
Theorem C8_health_fixed (history : list HttpRequest) (st : State World) :
  let st' := serve_all history st in
  serve GetHealth st' =
    (Returned {| status := 200; body := Text "Server is healthy" |}, st')
  /\ serve_all [GetHealth; GetHealth] st' = st'
  /\ serve GetHealth (snd (serve GetHealth st')) = serve GetHealth st'.
Proof. repeat split. Qed.

(** *** Process hooks *)

(** C6. On an uncaught exception, an unhandled rejection or a
    termination signal the handling returns normally, having logged the
    condition itself, logged that cleanup was triggered, called
    [closeBrowser], then (when that call returns)
    [forceKillAllChromeProcesses], logged a failure of either instead of
    raising it, logged the exception or the rejection once more from
    the file's own listener, and only then proceeded toward exit. *)
Theorem C6_fatal_condition_cleanup (condition : FatalCondition) (st : State World) :
  let outcome := process_fatal condition st in
  let cleanup :=
    match external closeBrowser [] (world st) with
    | (Returned _, w) =>
        Invoke forceKillAllChromeProcesses [] ::
        match external forceKillAllChromeProcesses [] w with
        | (Returned _, _) => []
        | (Raised error, _) => [ConsoleError (CleanupFailed error)]
        end
    | (Raised error, _) => [ConsoleError (CleanupFailed error)]
    end in
  let logged :=
    match condition with
    | UncaughtException error => [ConsoleError (UncaughtExceptionLogged error)]
    | UnhandledRejection reason => [ConsoleError (UnhandledRejectionLogged reason)]
    | TerminationSignal _ => []
    end in
  fst outcome = Returned tt
  /\ trace (snd outcome) =
       (trace st
        ++ [ConsoleError (FatalConditionReceived condition);
            ConsoleError ProcessCleanupTriggered;
            Invoke closeBrowser []]
        ++ cleanup ++ logged ++ [ProceedTowardExit])%list
  /\ In (FatalConditionReceived condition) (console (trace (snd outcome)))
  /\ In ProcessCleanupTriggered (console (trace (snd outcome)))
  /\ (forall error,
         condition = UncaughtException error ->
         In (UncaughtExceptionLogged error) (console (trace (snd outcome))))
  /\ (forall reason,
         condition = UnhandledRejection reason ->
         In (UnhandledRejectionLogged reason) (console (trace (snd outcome)))).
Proof.
  intros outcome cleanup logged.
  assert (Hret : fst outcome = Returned tt).
  { subst outcome.
    unfold process_fatal, setupProcessCleanup, cleanupCallback,
      onUncaughtException, onUnhandledRejection.
    unfold bind, try_catch, console_error, emit, call, ret. cbn.
    destruct (external closeBrowser [] (world st)) as [[v | error] w]; cbn.
    - destruct (external forceKillAllChromeProcesses [] w) as [[v' | error'] w'];
        destruct condition; reflexivity.
    - destruct condition; reflexivity. }
  assert (Htrace : trace (snd outcome) =
                   (trace st
                    ++ [ConsoleError (FatalConditionReceived condition);
                        ConsoleError ProcessCleanupTriggered;
                        Invoke closeBrowser []]
                    ++ cleanup ++ logged ++ [ProceedTowardExit])%list).
  { subst outcome cleanup logged.
    unfold process_fatal, setupProcessCleanup, cleanupCallback,
      onUncaughtException, onUnhandledRejection.
    unfold bind, try_catch, console_error, emit, call, ret. cbn.
    destruct (external closeBrowser [] (world st)) as [[v | error] w]; cbn.
    - destruct (external forceKillAllChromeProcesses [] w) as [[v' | error'] w']; cbn;
        destruct condition; cbn; repeat rewrite <- app_assoc; reflexivity.
    - destruct condition; cbn; repeat rewrite <- app_assoc; reflexivity. }
  split; [exact Hret |]. split; [exact Htrace |].
  clearbody outcome. split; [| split; [| split]].
  - rewrite Htrace, !console_app, !in_app_iff.
    right. left. cbn. left. reflexivity.
  - rewrite Htrace, !console_app, !in_app_iff.
    right. left. cbn. right. left. reflexivity.
  - intros error Hcondition. rewrite Htrace, !console_app, !in_app_iff.
    right. right. right. left. subst logged. rewrite Hcondition.
    cbn. left. reflexivity.
  - intros reason Hcondition. rewrite Htrace, !console_app, !in_app_iff.
    right. right. right. left. subst logged. rewrite Hcondition.
    cbn. left. reflexivity.
Qed.

(** *** Further properties of the tool-call handler *)

Lemma all_keys_are_labels (k : ToolKey) : In k case_labels.
Proof. destruct k; cbn; tauto. Qed.

Lemma select_case_none_iff (name : string) :
  select_case name = None <-> forall k, TOOL_NAMES k <> name.
Proof.
  split; [| apply select_case_absent].
  intros Hnone k Heq.
  pose proof (find_none _ _ Hnone k (all_keys_are_labels k)) as Hk.
  cbn in Hk. rewrite <- Heq, String.eqb_refl in Hk. discriminate Hk.
Qed.

(** X1. What a handler returns is what the dispatcher returns, as it is:
    the value is neither inspected nor wrapped, the world is the one the
    handler left, and nothing but the request line is logged. *)
Theorem X1_handler_result_passed_through
    (name : string) (args : JsValue) (k : ToolKey) (st : State World)
    (v : JsValue) (w : World) :
  select_case name = Some k ->
  external (bound_handler k) (case_actuals k args) (world st) = (Returned v, w) ->
  dispatch (CallToolRequest name args) st =
    (Returned v,
     {| world := w;
        trace := trace st ++ [ConsoleError (ToolCallReceived name args);
                              Invoke (bound_handler k) (case_actuals k args)];
        sessions := sessions st |}).
Proof.
  intros Hk Hret. cbn [dispatch].
  rewrite (callTool_routed name args k st Hk), Hret.
  now rewrite <- app_assoc.
Qed.

(** X2. When a handler raises, what it did to the world stays done and
    the sessions are untouched; the failure is logged once, after the
    call, with the message that goes into the envelope, and when the
    raised value has no string nothing is logged after the call. *)
Theorem X2_handler_failure_keeps_effects
    (name : string) (args : JsValue) (k : ToolKey) (st : State World)
    (error : Thrown) (w : World) :
  select_case name = Some k ->
  external (bound_handler k) (case_actuals k args) (world st) = (Raised error, w) ->
  snd (dispatch (CallToolRequest name args) st) =
    {| world := w;
       trace := trace st ++ [ConsoleError (ToolCallReceived name args);
                             Invoke (bound_handler k) (case_actuals k args)]
                ++ match
                     match error with
                     | ErrorObject message => Returned message
                     | ThrownValue thrown => js_String thrown
                     end
                   with
                   | Returned message => [ConsoleError (ToolFailed name message)]
                   | Raised _ => []
                   end;
       sessions := sessions st |}.
Proof.
  intros Hk Hraise. cbn [dispatch].
  rewrite (callTool_routed name args k st Hk), Hraise.
  change (match error with
          | ErrorObject message => Returned message
          | ThrownValue thrown => js_String thrown
          end) with (error_message error).
  destruct (error_message error); cbn [snd];
    rewrite <- ?app_assoc; reflexivity.
Qed.

(** X3. A tool call makes at most one call to an imported function, and
    never to [closeBrowser] or [forceKillAllChromeProcesses]. *)
Theorem X3_at_most_one_handler_call
    (name : string) (args : JsValue) (st : State World) :
  exists calls,
    invocations (trace (snd (dispatch (CallToolRequest name args) st))) =
      (invocations (trace st) ++ calls)%list
    /\ length calls <= 1
    /\ forall callee actuals,
         In (callee, actuals) calls ->
         callee <> closeBrowser /\ callee <> forceKillAllChromeProcesses.
Proof.
  cbn [dispatch]. destruct (select_case name) as [k |] eqn:Hk.
  - exists [(bound_handler k, case_actuals k args)].
    rewrite (callTool_routed name args k st Hk).
    destruct (external (bound_handler k) (case_actuals k args) (world st))
      as [[v | error] w]; [| destruct (error_message error)]; cbn [snd trace]; rewrite !invocations_app; cbn;
      rewrite ?app_nil_r; (split; [reflexivity |]); (split; [lia |]);
      intros callee actuals [Hin | []]; injection Hin as <- _;
      destruct k; split; discriminate.
  - exists []. rewrite (callTool_unrouted name args st Hk). cbn [snd trace].
    rewrite !invocations_app. cbn. rewrite !app_nil_r.
    split; [reflexivity |]. split; [cbn; lia |]. intros callee actuals [].
Qed.

(** X4. The switch takes the first matching case: a request is routed to
    a key exactly when it carries that key's name and no case above
    carries the same name.  A key whose name is also the name of a case
    above it is never reached. *)
Theorem X4_switch_first_match (name : string) (k : ToolKey) :
  select_case name = Some k
  <-> name = TOOL_NAMES k
      /\ forall k', case_index k' < case_index k -> TOOL_NAMES k' <> name.
Proof.
  split.
  - intros H. split; [now apply select_case_label |].
    intros k' Hlt Heq. subst name.
    unfold select_case, case_labels in H. cbn [find] in H.
    destruct k, k'; cbn in Hlt; try lia;
      repeat match type of H with
             | context [String.eqb ?a ?b] =>
                 let E := fresh "E" in
                 destruct (String.eqb_spec a b) as [E | E];
                 [ discriminate H | try (exfalso; apply E; reflexivity) ]
             end.
  - intros [-> Hfirst]. unfold select_case, case_labels. cbn [find].
    destruct k;
      repeat match goal with
             | |- context [String.eqb (TOOL_NAMES ?x) (TOOL_NAMES ?y)] =>
                 let E := fresh "E" in
                 destruct (String.eqb_spec (TOOL_NAMES x) (TOOL_NAMES y)) as [E | E];
                 [ first [ reflexivity
                         | exfalso; apply (Hfirst y); [cbn; lia | symmetry; exact E] ]
                 | try (exfalso; apply E; reflexivity); clear E ]
             end.
Qed.

(** X5. The handlers of BROWSER_INIT and GET_CONTENT are always given
    exactly one argument, and it is truthy: the request's payload when
    that is truthy, an empty mapping for every falsy payload
    ([undefined], [null], [false], [0], the empty string). *)
Theorem X5_init_and_content_payload_is_truthy
    (name : string) (args : JsValue) (k : ToolKey) (st : State World) :
  select_case name = Some k ->
  k = BROWSER_INIT \/ k = GET_CONTENT ->
  exists payload,
    invocations (trace (snd (dispatch (CallToolRequest name args) st))) =
      (invocations (trace st) ++ [(bound_handler k, [payload])])%list
    /\ truthy payload = true
    /\ (truthy args = true -> payload = args)
    /\ (truthy args = false -> payload = JObj []).
Proof.
  intros Hk Hkind. exists (js_or args (JObj [])).
  split.
  - cbn [dispatch]. rewrite (callTool_routed name args k st Hk).
    assert (Hact : case_actuals k args = [js_or args (JObj [])])
      by (destruct Hkind; subst k; reflexivity).
    rewrite Hact.
    destruct (external (bound_handler k) [js_or args (JObj [])] (world st))
      as [[v | error] w]; [| destruct (error_message error)]; cbn [snd trace]; rewrite !invocations_app; cbn;
      rewrite ?app_nil_r; reflexivity.
  - unfold js_or. destruct (truthy args) eqn:Ht.
    + repeat split; auto. discriminate.
    + repeat split; auto. discriminate.
Qed.

(** X10. A handler is called exactly when the request's name is the
    label of some case, whether or not the names are distinct. *)
Theorem X10_handler_called_iff_labelled
    (name : string) (args : JsValue) (st : State World) :
  invocations (trace (snd (dispatch (CallToolRequest name args) st)))
    = invocations (trace st)
  <-> forall k, TOOL_NAMES k <> name.
Proof.
  rewrite <- select_case_none_iff. cbn [dispatch]. split.
  - destruct (select_case name) as [k |] eqn:Hk; [| reflexivity].
    rewrite (callTool_routed name args k st Hk).
    destruct (external (bound_handler k) (case_actuals k args) (world st))
      as [[v | error] w]; [| destruct (error_message error)]; cbn [snd trace]; rewrite !invocations_app; cbn;
      rewrite ?app_nil_r; intros H; apply (f_equal (@length _)) in H;
      rewrite length_app in H; cbn in H; lia.
  - intros Hk. rewrite (callTool_unrouted name args st Hk). cbn [snd trace].
    rewrite !invocations_app. cbn. now rewrite !app_nil_r.
Qed.

(** X11. A handler that rejects with a plain object which has no
    [toString] of its own gets the text "[object Object]" whatever the
    object holds: its fields never reach the caller. *)
Theorem X11_thrown_object_text
    (name : string) (args : JsValue) (k : ToolKey) (st : State World)
    (fields : list (string * JsValue)) (w : World) :
  select_case name = Some k ->
  external (bound_handler k) (case_actuals k args) (world st)
    = (Raised (ThrownValue (JObj fields)), w) ->
  has_own_key "toString" fields = false ->
  fst (dispatch (CallToolRequest name args) st) =
    Returned
      (JObj [("content",
              JArr [JObj [("type", JStr "text");
                          ("text", JStr "❌ Tool execution failed: [object Object]")]]);
             ("isError", JBool true)]).
Proof.
  intros Hk Hraise Hplain. cbn [dispatch].
  rewrite (callTool_routed name args k st Hk), Hraise.
  cbn [error_message js_String]. rewrite Hplain. reflexivity.
Qed.

(** *** Further properties of the routes and hooks *)

(** X9. The cleanup callback stops at the first failure: when
    [closeBrowser] raises, [forceKillAllChromeProcesses] is not called
    and the callback raises the same condition; when it returns,
    [forceKillAllChromeProcesses] is called next, on the world
    [closeBrowser] left, and its failure is the callback's failure. *)
Theorem X9_cleanup_stops_at_first_failure (st : State World) :
  let after := cleanupCallback st in
  match external closeBrowser [] (world st) with
  | (Raised error, w) =>
      fst after = Raised error
      /\ invocations (trace (snd after)) =
           (invocations (trace st) ++ [(closeBrowser, [])])%list
      /\ world (snd after) = w
  | (Returned _, w) =>
      invocations (trace (snd after)) =
        (invocations (trace st)
         ++ [(closeBrowser, []); (forceKillAllChromeProcesses, [])])%list
      /\ world (snd after) = snd (external forceKillAllChromeProcesses [] w)
      /\ fst after =
           match fst (external forceKillAllChromeProcesses [] w) with
           | Returned _ => Returned tt
           | Raised error => Raised error
           end
  end.
Proof.
  unfold cleanupCallback, bind, console_error, emit, call, ret. cbn.
  destruct (external closeBrowser [] (world st)) as [[v | error] w]; cbn.
  - destruct (external forceKillAllChromeProcesses [] w) as [[v' | error'] w'];
      cbn; rewrite !invocations_app; cbn; rewrite ?app_nil_r, <- ?app_assoc;
      repeat split.
  - rewrite !invocations_app. cbn. rewrite ?app_nil_r. repeat split.
Qed.

(** X6. Once the server is connected, [app.listen] is called with
    [SERVER_PORT] when that is set to a non-empty string, taken as it is
    without being read as a number, and with 7777 when it is unset or
    empty.  The address, the number of descriptors and the content mode
    are logged when the listen callback runs; when [app.listen] throws,
    its error is logged as a failure to start; otherwise nothing is
    logged. *)
Theorem X6_startup_port
    (SERVER_PORT : option string) (listened : ListenOutcome) (st : State World) :
  let PORT :=
    match SERVER_PORT with
    | Some s => if s =? "" then JNum 7777 else JStr s
    | None => JNum 7777
    end in
  startup SERVER_PORT (Returned tt) listened st =
    (Returned tt,
     {| world := world st;
        trace := trace st ++ Listen PORT ::
                 match listened with
                 | ListenThrows error => [ConsoleError (FailedToStart error)]
                 | ListenCallbackRuns =>
                     [ConsoleLog (ServerRunning PORT);
                      ConsoleLog (ToolsLoaded (length TOOLS));
                      ConsoleLog ContentPriorityMode]
                 | ListenCallbackNeverRuns => []
                 end;
        sessions := sessions st |}).
Proof.
  unfold startup, app_listen, try_catch, bind, throw, console_log, console_error,
    emit, ret.
  destruct SERVER_PORT as [[| c s] |]; destruct listened; cbn;
    rewrite <- ?app_assoc; reflexivity.
Qed.

(** X7. Startup never touches the world; [app.listen] is called exactly
    when [connect] succeeded; the running lines are logged exactly when
    moreover the listen callback runs; a failure to start is logged
    exactly when [connect] failed or [app.listen] threw, with that
    error. *)
Theorem X7_startup_outcomes
    (SERVER_PORT : option string) (connected : Result unit)
    (listened : ListenOutcome) (st : State World) :
  let after := startup SERVER_PORT connected listened st in
  world (snd after) = world st
  /\ exists events,
       trace (snd after) = (trace st ++ events)%list
       /\ ((exists port, In (Listen port) events)
           <-> exists u, connected = Returned u)
       /\ ((exists port, In (ConsoleLog (ServerRunning port)) events)
           <-> (exists u, connected = Returned u) /\ listened = ListenCallbackRuns)
       /\ forall error,
            In (ConsoleError (FailedToStart error)) events
            <-> connected = Raised error
                \/ ((exists u, connected = Returned u)
                    /\ listened = ListenThrows error).
Proof.
  unfold startup, app_listen, try_catch, bind, throw, console_log, console_error,
    emit, ret.
  destruct connected as [u | failure].
  - destruct listened as [thrown | |]; cbn; (split; [reflexivity |]);
      eexists; (split; [rewrite <- ?app_assoc; cbn; reflexivity |]).
    + split; [| split].
      * split; [intros _; eauto | intros _; eexists; left; reflexivity].
      * split.
        { intros [port [H | [H | []]]]; discriminate H. }
        { intros [_ H]; discriminate H. }
      * intros error. split.
        { intros [H | [H | []]]; [discriminate H |].
          injection H as <-. right. split; [eauto | reflexivity]. }
        { intros [H | [_ H]]; [discriminate H |].
          injection H as <-. right. left. reflexivity. }
    + split; [| split].
      * split; [intros _; eauto | intros _; eexists; left; reflexivity].
      * split; [intros _; split; [eauto | reflexivity] |].
        intros _. eexists. right. left. reflexivity.
      * intros error. split.
        { intros [H | [H | [H | [H | []]]]]; discriminate H. }
        { intros [H | [_ H]]; discriminate H. }
    + split; [| split].
      * split; [intros _; eauto | intros _; eexists; left; reflexivity].
      * split.
        { intros [port [H | []]]; discriminate H. }
        { intros [_ H]; discriminate H. }
      * intros error. split.
        { intros [H | []]; discriminate H. }
        { intros [H | [_ H]]; discriminate H. }
  - cbn. split; [reflexivity |].
    exists [ConsoleError (FailedToStart failure)]. split; [reflexivity |].
    split; [| split].
    + split.
      * intros [port [H | []]]. discriminate H.
      * intros [u H]. discriminate H.
    + split.
      * intros [port [H | []]]. discriminate H.
      * intros [[u H] _]. discriminate H.
    + intros error. split.
      * intros [H | []]. injection H as <-. left. reflexivity.
      * intros [H | [[u H] _]]; [| discriminate H].
        injection H as <-. left. reflexivity.
Qed.

End Server.

(** ** The routing table and the registry *)

(** C7. Every key of [TOOL_NAMES] labels exactly one case of the switch, the cases await pairwise different handlers, and with
    pairwise different names a request is routed to a key exactly when it
    carries that key's name.  The registry plays no part: a tool call is
    dispatched the same whatever [TOOLS] holds, and startup reads nothing
    of [TOOLS] but its length. *)
Theorem C7_routing_table_bindings (TOOL_NAMES : ToolKey -> string) :
  (forall k1 k2, TOOL_NAMES k1 = TOOL_NAMES k2 -> k1 = k2) ->
  (forall k, length (filter (ToolKey_eqb k) case_labels) = 1)
  /\ (forall k1 k2, bound_handler k1 = bound_handler k2 -> k1 = k2)
  /\ (forall name k, select_case TOOL_NAMES name = Some k <-> name = TOOL_NAMES k)
  /\ (forall World external TOOLS1 TOOLS2 info caps name args (st : State World),
         dispatch World external TOOL_NAMES TOOLS1 info caps (CallToolRequest name args) st
         = dispatch World external TOOL_NAMES TOOLS2 info caps (CallToolRequest name args) st)
  /\ (forall World TOOLS1 TOOLS2 port connected listened (st : State World),
         length TOOLS1 = length TOOLS2 ->
         startup World TOOLS1 port connected listened st
         = startup World TOOLS2 port connected listened st).
Proof.
  intros distinct. split; [| split; [| split; [| split]]].
  - intros k. destruct k; reflexivity.
  - intros k1 k2 H. destruct k1, k2; try reflexivity; discriminate H.
  - intros name k. split; [apply select_case_label |].
    intros ->. unfold select_case, case_labels. cbn [find].
    destruct k;
      repeat match goal with
             | |- context [String.eqb ?a ?b] =>
                 let E := fresh "E" in
                 destruct (String.eqb_spec a b) as [E | E];
                 [ try reflexivity; apply distinct in E; discriminate E
                 | try (exfalso; apply E; reflexivity); clear E ]
             end.
  - reflexivity.
  - intros World TOOLS1 TOOLS2 port connected listened st Hlen.
    unfold startup. now rewrite Hlen.
Qed.

(** C7, no check at startup: it is not so that a server which goes on to
    listen has a consistent registry.  With a registry that describes
    [navigate] twice and no other tool, startup listens all the same. *)
Lemma C7_startup_checks_nothing :
  ~ (forall (TOOL_NAMES : ToolKey -> string) (TOOLS : list JsValue) (st : State nat),
        In (Listen (JNum 7777))
          (trace (snd (startup nat TOOLS None (Returned tt) ListenCallbackRuns st))) ->
        registry_consistent TOOL_NAMES TOOLS = true).
Proof.
  intros claim.
  specialize (claim demo_TOOL_NAMES
                [JObj [("name", JStr "navigate")]; JObj [("name", JStr "navigate")]]
                demo_state).
  assert (H : registry_consistent demo_TOOL_NAMES
                [JObj [("name", JStr "navigate")]; JObj [("name", JStr "navigate")]]
              = false) by reflexivity.
  rewrite claim in H; [discriminate H |].
  cbn. left. reflexivity.
Qed.

Lemma C7_witness :
  select_case demo_TOOL_NAMES "navigate" = Some NAVIGATE
  <-> "navigate" = demo_TOOL_NAMES NAVIGATE.
Proof.
  refine (proj1 (proj2 (proj2 (C7_routing_table_bindings demo_TOOL_NAMES _)))
            "navigate" NAVIGATE).
  intros k1 k2 H. destruct k1, k2; try reflexivity; discriminate H.
Defined.

(** ** Runs on the concrete collaborators *)

(** C5, not every handler other than those of BROWSER_INIT and
    GET_CONTENT receives the raw mapping: the handler of BROWSER_CLOSE is
    given nothing. *)
Lemma C5_raw_mapping_not_passed :
  ~ (forall (name : string) (args : JsValue) (k : ToolKey),
        select_case demo_TOOL_NAMES name = Some k ->
        k <> BROWSER_INIT -> k <> GET_CONTENT ->
        invocations
          (trace (snd (dispatch nat demo_external demo_TOOL_NAMES [] JNull JNull
                         (CallToolRequest name args) demo_state)))
        = [(bound_handler k, [args])]).
Proof.
  intros claim.
  specialize (claim "browser_close" (JObj [("force", JBool true)]) BROWSER_CLOSE
                eq_refl).
  cbv in claim.
  assert (H : [(handleBrowserClose, @nil JsValue)]
              = [(handleBrowserClose, [JObj [("force", JBool true)]])])
    by (apply claim; discriminate).
  discriminate H.
Qed.

Lemma C5_witness :
  invocations
    (trace (snd (dispatch nat demo_external demo_TOOL_NAMES [] JNull JNull
                   (CallToolRequest "browser_init" JUndefined) demo_state)))
  = [(handleBrowserInit, [JObj []])].
Proof.
  exact (C5_arguments_passed nat demo_external demo_TOOL_NAMES [] JNull JNull
           "browser_init" JUndefined BROWSER_INIT demo_state eq_refl).
Defined.

(** C1, a rejection the [catch] block cannot report.  [handleType]
    rejects with the object it was given, whose own [toString] is a
    string: [String(error)] throws a [TypeError] inside the [catch]
    block, so the tool-call handler raises it instead of returning the
    failure envelope, and no failure line is logged. *)
Theorem C1_unconvertible_rejection_escapes :
  dispatch nat throwing_external demo_TOOL_NAMES [] JNull JNull
    (CallToolRequest "type" (JObj [("toString", JStr "x")])) demo_state
  = (Raised (ErrorObject "Cannot convert object to primitive value"),
     {| world := 1;
        trace := [ConsoleError (ToolCallReceived "type" (JObj [("toString", JStr "x")]));
                  Invoke handleType [JObj [("toString", JStr "x")]]];
        sessions := [] |}).
Proof.
  cbn [dispatch].
  rewrite (callTool_routed nat throwing_external demo_TOOL_NAMES
             "type" (JObj [("toString", JStr "x")]) TYPE demo_state eq_refl).
  reflexivity.
Qed.

Lemma X12_witness :
  fst (dispatch nat demo_external demo_TOOL_NAMES [] JNull JNull
         (CallToolRequest "wait" JUndefined) demo_state)
  = Returned
      (JObj [("content",
              JArr [JObj [("type", JStr "text");
                          ("text", JStr "❌ Tool execution failed: timeout")]]);
             ("isError", JBool true)]).
Proof.
  exact (X12_handler_failure_envelope nat demo_external demo_TOOL_NAMES [] JNull JNull
           "wait" JUndefined WAIT demo_state (ThrownValue (JStr "timeout")) 1 "timeout"
           eq_refl eq_refl eq_refl).
Defined.

Lemma C2_witness :
  invocations
    (trace (snd (dispatch nat demo_external demo_TOOL_NAMES [] JNull JNull
                   (CallToolRequest "unknown_tool" (JObj [])) demo_state)))
  = [].
Proof.
  refine (proj1 (proj2 (proj2
            (C2_unknown_tool_envelope nat demo_external demo_TOOL_NAMES [] JNull JNull
               "unknown_tool" (JObj []) demo_state _)))).
  intros k. destruct k; discriminate.
Defined.

Lemma C10_witness :
  fst (dispatch nat demo_external demo_TOOL_NAMES [] JNull JNull
         (CallToolRequest "browser_close" (JObj [("force", JBool true)])) demo_state)
  = fst (dispatch nat demo_external demo_TOOL_NAMES [] JNull JNull
           (CallToolRequest "browser_close" JUndefined) demo_state).
Proof.
  exact (proj1 (proj2 (proj2
           (C10_arguments_discarded nat demo_external demo_TOOL_NAMES [] JNull JNull
              "browser_close" BROWSER_CLOSE
              (JObj [("force", JBool true)]) JUndefined demo_state
              eq_refl (or_introl eq_refl))))).
Defined.

Example js_String_array :
  js_String (JArr [JNum 1; JNull; JStr "a"; JArr [JBool true; JNum (-20)]])
  = Returned "1,,a,true,-20".
Proof. reflexivity. Qed.

Example js_String_large_numbers :
  map js_String [JNum (2 ^ 53 + 1); JNum (2 ^ 64); JNum (10 ^ 21 - 1);
                 JNum (10 ^ 21); JNum (- 2 ^ 70); JNum (2 ^ 1024)]
  = map Returned ["9007199254740992"; "18446744073709552000"; "1e+21";
                  "1e+21"; "-1.1805916207174113e+21"; "Infinity"].
Proof. vm_compute. reflexivity. Qed.

Example js_String_own_toString :
  js_String (JObj [("toString", JStr "x")]) = Raised TypeError_not_primitive
  /\ js_String (JArr [JNum 1; JObj [("a", JNull); ("toString", JNull)]])
     = Raised TypeError_not_primitive
  /\ js_String (JObj [("valueOf", JStr "x")]) = Returned "[object Object]".
Proof. repeat split. Qed.

Example js_String_object :
  js_String (JObj [("code", JNum 7)]) = Returned "[object Object]".
Proof. reflexivity. Qed.

Example js_or_undefined : js_or JUndefined (JObj []) = JObj [].
Proof. reflexivity. Qed.

Example js_or_mapping :
  js_or (JObj [("headless", JBool false)]) (JObj []) = JObj [("headless", JBool false)].
Proof. reflexivity. Qed.

Example navigate_succeeds :
  dispatch nat demo_external demo_TOOL_NAMES [] JNull JNull
    (CallToolRequest "navigate" (JObj [("url", JStr "https://example.com")]))
    demo_state
  = (Returned (text_envelope "Navigated to https://example.com"),
     {| world := 1;
        trace := [ConsoleError
                    (ToolCallReceived "navigate"
                       (JObj [("url", JStr "https://example.com")]));
                  Invoke handleNavigate [JObj [("url", JStr "https://example.com")]]];
        sessions := [] |}).
Proof. reflexivity. Qed.

Example thrown_string_is_stringified :
  fst (dispatch nat demo_external demo_TOOL_NAMES [] JNull JNull
         (CallToolRequest "wait" JUndefined) demo_state)
  = Returned
      (JObj [("content",
              JArr [JObj [("type", JStr "text");
                          ("text", JStr "❌ Tool execution failed: timeout")]]);
             ("isError", JBool true)]).
Proof. reflexivity. Qed.

Example unknown_tool_over_http :
  fst (postMcp nat demo_external demo_TOOL_NAMES [] JNull JNull
         demo_randomUUID demo_decode demo_transmit
         (JObj [("method", JStr "tools/call");
                ("params", JObj [("name", JStr "unknown_tool")])])
         demo_state)
  = Returned
      {| status := 200;
         body :=
           Json (JObj [("content",
                        JArr [JObj [("type", JStr "text");
                                    ("text",
                                     JStr "❌ Tool execution failed: Unknown tool: unknown_tool")]]);
                       ("isError", JBool true)]) |}.
Proof. reflexivity. Qed.

Example undecodable_body_over_http :
  postMcp nat demo_external demo_TOOL_NAMES [] JNull JNull
    demo_randomUUID demo_decode demo_transmit (JStr "not a message") demo_state
  = (Returned {| status := 500;
                 body := Json (JObj [("error", JStr "Internal Server Error")]) |},
     {| world := 0;
        trace := [ConsoleError (ErrorHandlingMcpRequest (ErrorObject "Invalid request"))];
        sessions := [] |}).
Proof. reflexivity. Qed.

Example handshake_over_http :
  postMcp nat demo_external demo_TOOL_NAMES [] (JStr "info") (JStr "caps")
    demo_randomUUID demo_decode demo_transmit
    (JObj [("method", JStr "initialize");
           ("params", JObj [("protocolVersion", JStr "2025-03-26")])])
    demo_state
  = (Returned {| status := 200;
                 body := Json (JObj [("protocolVersion", JStr "2025-03-26");
                                     ("capabilities", JStr "caps");
                                     ("serverInfo", JStr "info")]) |},
     {| world := 0;
        trace := [ConsoleLog (SessionInitialized "session-0");
                  ConsoleError
                    (InitializeRequestReceived "2025-03-26"
                       (JObj [("protocolVersion", JStr "2025-03-26")]))];
        sessions := ["session-0"] |}).
Proof. reflexivity. Qed.

Example health_after_traffic :
  serve nat demo_external demo_TOOL_NAMES [] JNull JNull
    demo_randomUUID demo_decode demo_transmit GetHealth
    (serve_all nat demo_external demo_TOOL_NAMES [] JNull JNull
       demo_randomUUID demo_decode demo_transmit
       [PostMcp (JStr "not a message"); GetHealth;
        PostMcp (JObj [("method", JStr "tools/list")])]
       demo_state)
  = (Returned {| status := 200; body := Text "Server is healthy" |},
     {| world := 0;
        trace := [ConsoleError (ErrorHandlingMcpRequest (ErrorObject "Invalid request"));
                  ConsoleError ToolsListRequested];
        sessions := [] |}).
Proof. reflexivity. Qed.

Example signal_runs_cleanup :
  process_fatal nat demo_external (TerminationSignal "SIGINT") demo_state
  = (Returned tt,
     {| world := 2;
        trace := [ConsoleError (FatalConditionReceived (TerminationSignal "SIGINT"));
                  ConsoleError ProcessCleanupTriggered;
                  Invoke closeBrowser [];
                  Invoke forceKillAllChromeProcesses [];
                  ProceedTowardExit];
        sessions := [] |}).
Proof. reflexivity. Qed.

Example failing_close_is_logged :
  process_fatal nat flaky_external (UncaughtException (ErrorObject "boom")) demo_state
  = (Returned tt,
     {| world := 0;
        trace := [ConsoleError
                    (FatalConditionReceived (UncaughtException (ErrorObject "boom")));
                  ConsoleError ProcessCleanupTriggered;
                  Invoke closeBrowser [];
                  ConsoleError (CleanupFailed (ErrorObject "no browser"));
                  ConsoleError (UncaughtExceptionLogged (ErrorObject "boom"));
                  ProceedTowardExit];
        sessions := [] |}).
Proof. reflexivity. Qed.

Example startup_default_port :
  trace (snd (startup nat [JObj [("name", JStr "navigate")]] (Some "") (Returned tt)
                ListenCallbackRuns
                demo_state))
  = [Listen (JNum 7777); ConsoleLog (ServerRunning (JNum 7777));
     ConsoleLog (ToolsLoaded 1); ConsoleLog ContentPriorityMode].
Proof. reflexivity. Qed.

Example startup_connect_fails :
  trace (snd (startup nat [] (Some "8080") (Raised (ErrorObject "connect"))
                ListenCallbackRuns demo_state))
  = [ConsoleError (FailedToStart (ErrorObject "connect"))].
Proof. reflexivity. Qed.

(** ** Further runs on the concrete collaborators *)

Lemma X1_witness :
  dispatch nat demo_external demo_TOOL_NAMES [] JNull JNull
    (CallToolRequest "click" (JNum 5)) demo_state
  = (Returned (JNum 5),
     {| world := 1;
        trace := [ConsoleError (ToolCallReceived "click" (JNum 5));
                  Invoke handleClick [JNum 5]];
        sessions := [] |}).
Proof.
  exact (X1_handler_result_passed_through nat demo_external demo_TOOL_NAMES [] JNull JNull
           "click" (JNum 5) CLICK demo_state (JNum 5) 1 eq_refl eq_refl).
Defined.

Lemma X2_witness :
  snd (dispatch nat demo_external demo_TOOL_NAMES [] JNull JNull
         (CallToolRequest "wait" (JNum 250)) demo_state)
  = {| world := 1;
       trace := [ConsoleError (ToolCallReceived "wait" (JNum 250));
                 Invoke handleWait [JNum 250];
                 ConsoleError (ToolFailed "wait" "timeout")];
       sessions := [] |}.
Proof.
  exact (X2_handler_failure_keeps_effects nat demo_external demo_TOOL_NAMES [] JNull JNull
           "wait" (JNum 250) WAIT demo_state (ThrownValue (JStr "timeout")) 1
           eq_refl eq_refl).
Defined.

Lemma X5_witness :
  exists payload,
    invocations
      (trace (snd (dispatch nat demo_external demo_TOOL_NAMES [] JNull JNull
                     (CallToolRequest "get_content" JNull) demo_state)))
    = [(handleGetContent, [payload])]
    /\ truthy payload = true
    /\ (truthy JNull = true -> payload = JNull)
    /\ (truthy JNull = false -> payload = JObj []).
Proof.
  exact (X5_init_and_content_payload_is_truthy nat demo_external demo_TOOL_NAMES
           [] JNull JNull "get_content" JNull GET_CONTENT demo_state
           eq_refl (or_intror eq_refl)).
Defined.

Lemma X11_witness :
  fst (dispatch nat throwing_external demo_TOOL_NAMES [] JNull JNull
         (CallToolRequest "type" (JObj [("text", JStr "secret")])) demo_state)
  = Returned
      (JObj [("content",
              JArr [JObj [("type", JStr "text");
                          ("text", JStr "❌ Tool execution failed: [object Object]")]]);
             ("isError", JBool true)]).
Proof.
  exact (X11_thrown_object_text nat throwing_external demo_TOOL_NAMES [] JNull JNull
           "type" (JObj [("text", JStr "secret")]) TYPE demo_state
           [("text", JStr "secret")] 1 eq_refl eq_refl eq_refl).
Defined.

Example clashing_name_goes_to_the_upper_case :
  select_case clashing_TOOL_NAMES "click" = Some CLICK
  /\ invocations
       (trace (snd (dispatch nat demo_external clashing_TOOL_NAMES [] JNull JNull
                      (CallToolRequest (clashing_TOOL_NAMES SOLVE_CAPTCHA) JUndefined)
                      demo_state)))
     = [(handleClick, [JUndefined])].
Proof. split; reflexivity. Qed.

Example startup_keeps_port_text :
  trace (snd (startup nat [] (Some "08080") (Returned tt) ListenCallbackRuns demo_state))
  = [Listen (JStr "08080"); ConsoleLog (ServerRunning (JStr "08080"));
     ConsoleLog (ToolsLoaded 0); ConsoleLog ContentPriorityMode].
Proof. reflexivity. Qed.

Example startup_port_out_of_range :
  trace (snd (startup nat [] (Some "99999") (Returned tt)
                (ListenThrows (ErrorObject "options.port should be >= 0 and < 65536"))
                demo_state))
  = [Listen (JStr "99999");
     ConsoleError (FailedToStart (ErrorObject "options.port should be >= 0 and < 65536"))].
Proof. reflexivity. Qed.
